(** * OpenAIChatExperiment: a shallow embedding of
    prompttools/experiment/experiments/openai_chat_experiment.py

    Python objects are modelled as follows.
    - Immutable payloads (numbers, strings, None, inf, nested message dicts)
      are values of [value]; ints and finite floats are rationals [Q], so
      Python's [==] between them is [Qeq_bool]; [True == 1] holds as in
      Python.
    - The parameter lists stored in [all_args] are mutable list objects that
      the constructor takes from its caller without copying; they live in a
      [store] (a heap of list objects) and [all_args] maps each parameter
      name to a reference into it, so aliasing between parameters is visible.
    - Exceptions are values of [py_exc]; a method is a state and exception
      computation [M A], which returns the state reached when it returns or
      raises (Python keeps the mutations made before a raise). *)

From Stdlib Require Import QArith.
From stdpp Require Import base gmap strings list.

Set Warnings "-register-all".
Open Scope list_scope.

(* ------------------------------------------------------------------ *)
(** ** Python values *)

Inductive value : Type :=
| VNone
| VInf                              (* float("inf") *)
| VNum (q : Q)                      (* int or finite float *)
| VBool (b : bool)
| VStr (s : string)
| VList (xs : list value)
| VDict (kvs : list (string * value)).

(** Python's [==]. Dicts compare as maps (same keys, equal values). *)
Fixpoint py_eq (a b : value) {struct a} : bool :=
  match a, b with
  | VNone, VNone => true
  | VInf, VInf => true
  | VNum x, VNum y => Qeq_bool x y
  | VBool x, VBool y => Bool.eqb x y
  | VBool x, VNum y => Qeq_bool (if x then 1 else 0) y
  | VNum x, VBool y => Qeq_bool x (if y then 1 else 0)
  | VStr s, VStr t => String.eqb s t
  | VList xs, VList ys =>
      (fix go (xs ys : list value) : bool :=
         match xs, ys with
         | [], [] => true
         | x :: xs', y :: ys' => py_eq x y && go xs' ys'
         | _, _ => false
         end) xs ys
  | VDict xs, VDict ys =>
      Nat.eqb (length xs) (length ys) &&
      (fix go (xs : list (string * value)) : bool :=
         match xs with
         | [] => true
         | (k, v) :: xs' =>
             match list_find (fun kv => kv.1 = k) ys with
             | Some (_, (_, w)) => py_eq v w && go xs'
             | None => false
             end
         end) xs
  | _, _ => false
  end.

(** [x in xs] for a Python list. *)
Definition py_in (x : value) (xs : list value) : bool :=
  existsb (fun y => py_eq y x) xs.

Inductive py_exc : Type :=
| RuntimeError
| IndexError
| KeyError
| ValueError
| TypeError
| PromptExperimentException
| CompletionError (msg : string).   (* raised by the completion call *)

(* ------------------------------------------------------------------ *)
(** ** The heap of list objects *)

Definition loc := nat.

Record store : Type := mkStore {
  mem : gmap loc (list value);
  next_loc : loc
}.

(** Reading a list object; references in a live experiment are never
    dangling, the empty list stands in for the impossible case. *)
Definition deref (st : store) (l : loc) : list value :=
  default [] (mem st !! l).

Definition alloc (st : store) (xs : list value) : store * loc :=
  (mkStore (<[next_loc st := xs]> (mem st)) (S (next_loc st)), next_loc st).

(** [lst.append(x)] *)
Definition append_at (st : store) (l : loc) (x : value) : store :=
  mkStore (<[l := deref st l ++ [x]]> (mem st)) (next_loc st).

(* ------------------------------------------------------------------ *)
(** ** Python dicts with insertion order *)

(** A Python dict as an association list in insertion order; keys are
    unique in every dict the code builds. *)
Definition pydict (A : Type) := list (string * A).

Fixpoint dict_get {A} (d : pydict A) (k : string) : option A :=
  match d with
  | [] => None
  | (k', a) :: d' => if String.eqb k' k then Some a else dict_get d' k
  end.

(** [d[k] = a]: replaces in place, or appends a new key at the end. *)
Fixpoint dict_set {A} (d : pydict A) (k : string) (a : A) : pydict A :=
  match d with
  | [] => [(k, a)]
  | (k', a') :: d' =>
      if String.eqb k' k then (k', a) :: d' else (k', a') :: dict_set d' k a
  end.

(** [del d[k]] (the code only deletes keys that are present). *)
Definition dict_del {A} (d : pydict A) (k : string) : pydict A :=
  List.filter (fun kv => negb (String.eqb kv.1 k)) d.

(* ------------------------------------------------------------------ *)
(** ** Results, exceptions and DataFrames *)

Inductive res (A : Type) : Type :=
| Ok (a : A)
| Exc (e : py_exc).
Arguments Ok {A} a.
Arguments Exc {A} e.

(** A pandas DataFrame: its row index and its columns, in order. *)
Record frame : Type := mkFrame {
  index : list nat;
  columns : list (string * list value)
}.

Definition colnames (df : frame) : list string := map fst (columns df).

Definition empty_frame : frame := mkFrame [] [].

Definition has_col (df : frame) (n : string) : bool :=
  existsb (String.eqb n) (colnames df).

(** [df[names]] for a list of names: KeyError if one is missing; otherwise
    every column carrying each requested name, in the requested order, on
    the same row index. *)
Definition project (df : frame) (names : list string) : res frame :=
  if forallb (has_col df) names
  then Ok (mkFrame (index df)
             (flat_map (fun n => List.filter (fun c => String.eqb c.1 n) (columns df))
                names))
  else Exc KeyError.

(* ------------------------------------------------------------------ *)
(** ** The execution queue and the experiment object *)

(** Modelled from the spec: ExecutionQueue (prompttools.experiment.
    experiments.experiment, not part of this file) keeps the dispatched
    keyword arguments, raw results and latencies as parallel lists in
    submission order. *)
Record queue : Type := mkQueue {
  q_input_args : list (pydict value);
  q_results : list value;
  q_latencies : list Q
}.

Definition empty_queue : queue := mkQueue [] [] [].

(** The attributes of an [OpenAIChatExperiment] instance. *)
Record exp : Type := mkExp {
  heap : store;
  all_args : pydict loc;             (* name -> list object *)
  prompt_keys : loc;
  argument_combos : list (pydict value);
  exq : queue;
  full_df : frame;
  partial_df : frame;
  score_df : frame;
  experiment_id : option string;
  tabulated : nat   (* records of the queue the aggregator has turned into rows *)
}.

(** [copy.deepcopy(self.all_args)]: fresh lists with the same elements. *)
Definition deepcopy_args (e : exp) : pydict (list value) :=
  map (fun kl => (kl.1, deref (heap e) kl.2)) (all_args e).

(** [itertools.product( *lists)], the first list varying slowest. *)
Fixpoint product (ls : list (list value)) : list (list value) :=
  match ls with
  | [] => [[]]
  | l :: ls' => flat_map (fun x => map (cons x) (product ls')) l
  end.

(** [[dict(zip(d, val)) for val in itertools.product( *d.values())]] *)
Definition combos_of (d : pydict (list value)) : list (pydict value) :=
  map (fun vals => zip (map fst d) vals) (product (map snd d)).

Definition is_none (v : value) : bool :=
  match v with VNone => true | _ => false end.

(** [{k: v for k, v in combo.items() if (v is not None) and (v != float("inf"))}] *)
Definition strip_defaults (combo : pydict value) : pydict value :=
  List.filter (fun kv => negb (is_none kv.2) && negb (py_eq kv.2 VInf)) combo.

(* ------------------------------------------------------------------ *)
(** ** A state and exception monad for methods *)

Definition set_queue (e : exp) (q : queue) : exp :=
  mkExp (heap e) (all_args e) (prompt_keys e) (argument_combos e) q
    (full_df e) (partial_df e) (score_df e) (experiment_id e) (tabulated e).

Definition M (A : Type) : Type := exp -> exp * res A.

Global Instance M_ret : MRet M := fun A a e => (e, Ok a).
Global Instance M_bind : MBind M := fun A B f m e =>
  match m e with
  | (e', Ok a) => f a e'
  | (e', Exc x) => (e', Exc x)
  end.

Definition raise {A} (x : py_exc) : M A := fun e => (e, Exc x).
Definition get_exp : M exp := fun e => (e, Ok e).
Definition put_exp (e' : exp) : M unit := fun _ => (e', Ok tt).

Fixpoint for_each {A} (xs : list A) (f : A -> M unit) : M unit :=
  match xs with
  | [] => mret tt
  | x :: xs' => f x ;; for_each xs' f
  end.

(* ------------------------------------------------------------------ *)
(** ** Construction *)

(** The process environment read by the constructor. *)
Record environ : Type := mkEnviron {
  env_DEBUG : bool;
  env_AZURE_OPENAI_KEY : option string
}.

(** The constructor's arguments: every parameter is a list object of the
    caller (or one of the default lists, which Python evaluates once and
    shares between calls). [messages] holds rendered message lists; the
    [PromptSelector] rendering branch is not modelled. *)
Record ctor_args : Type := mkCtorArgs {
  a_model : loc;
  a_messages : loc;
  a_temperature : loc;
  a_top_p : loc;
  a_n : loc;
  a_stream : loc;
  a_stop : loc;
  a_max_tokens : loc;
  a_presence_penalty : loc;
  a_frequency_penalty : loc;
  a_logit_bias : loc;
  a_functions : loc;
  a_function_call : loc;
  a_azure_openai_service_configs : option (pydict value)
}.

(** Modelled from the spec: [Experiment.__init__] (the base class, not part
    of this file) starts with an empty execution queue, no argument combos,
    empty result tables and no experiment id; no record is tabulated yet. *)
Definition base_init (st : store) (aa : pydict loc) (pk : loc) : exp :=
  mkExp st aa pk [] empty_queue empty_frame empty_frame empty_frame None 0.

(** [OpenAIChatExperiment.__init__], for message lists: the model's values
    have no [PromptSelector] objects, so [isinstance(messages[0],
    PromptSelector)] is false and the else branch (line 127) is taken; the
    selector branch (lines 121-125, a rendered copy of the messages and a
    dict for [prompt_keys]) is outside this model. *)
Definition init (env : environ) (st : store) (a : ctor_args) : res exp :=
  (* if os.getenv("DEBUG"): functions[0] is inspected *)
  if env_DEBUG env && bool_decide (deref st (a_functions a) = []) then Exc IndexError
  else
  (* isinstance(messages[0], PromptSelector) *)
  match deref st (a_messages a) with
  | [] => Exc IndexError
  | _ :: _ =>
    let aa0 : pydict loc :=
      [("model", a_model a); ("messages", a_messages a);
       ("temperature", a_temperature a); ("functions", a_functions a);
       ("function_call", a_function_call a); ("top_p", a_top_p a);
       ("n", a_n a); ("stream", a_stream a); ("stop", a_stop a);
       ("max_tokens", a_max_tokens a);
       ("presence_penalty", a_presence_penalty a);
       ("frequency_penalty", a_frequency_penalty a);
       ("logit_bias", a_logit_bias a)] in
    let aa1 :=
      if py_eq (VList (deref st (a_logit_bias a))) (VList [VNone])
      then dict_del aa0 "logit_bias" else aa0 in
    match a_azure_openai_service_configs a with
    | Some ((_ :: _) as cfg) =>
        match env_AZURE_OPENAI_KEY env, dict_get cfg "AZURE_OPENAI_ENDPOINT",
              dict_get cfg "API_TYPE", dict_get cfg "API_VERSION" with
        | Some _, Some _, Some _, Some _ =>
            Ok (base_init st (dict_set (dict_del aa1 "model") "engine" (a_model a))
                  (a_messages a))
        | _, _, _, _ => Exc KeyError
        end
    | _ => Ok (base_init st aa1 (a_messages a))
    end
  end.

(** [cls(model, messages)]: the two lists and the default lists
    [1.0], [1.0], [1], [False], [None], [inf], [0.0], [0.0], [None],
    [None], [None] in the store, and the argument record referring to them. *)
Definition alloc_default_ctor (st : store) (model messages : list value)
  : store * ctor_args :=
  let '(st, lm) := alloc st model in
  let '(st, lmsg) := alloc st messages in
  let '(st, lt) := alloc st [VNum 1] in
  let '(st, lp) := alloc st [VNum 1] in
  let '(st, ln) := alloc st [VNum 1] in
  let '(st, ls) := alloc st [VBool false] in
  let '(st, lstop) := alloc st [VNone] in
  let '(st, lmax) := alloc st [VInf] in
  let '(st, lpp) := alloc st [VNum 0] in
  let '(st, lfp) := alloc st [VNum 0] in
  let '(st, llb) := alloc st [VNone] in
  let '(st, lf) := alloc st [VNone] in
  let '(st, lfc) := alloc st [VNone] in
  (st, mkCtorArgs lm lmsg lt lp ln ls lstop lmax lpp lfp llb lf lfc None).

Fixpoint alloc_dict (st : store) (d : pydict (list value)) : store * pydict loc :=
  match d with
  | [] => (st, [])
  | (k, xs) :: d' =>
      let '(st1, l) := alloc st xs in
      let '(st2, d2) := alloc_dict st1 d' in
      (st2, (k, l) :: d2)
  end.

(* ------------------------------------------------------------------ *)
(** ** Persistence: [_get_state] and [_load_state] *)

(** The items of the persisted tuple. [pickle] keeps the object graph, so
    [pickle.loads (pickle.dumps x)] is [x]; the lists referenced by the
    experiment are stored by value. *)
Inductive state_item : Type :=
| SName (name : string)
| SId (id : option string)
| SParams (prompt_keys : list value) (all_args : pydict (list value))
| SFrame (df : frame)
| SCols (names : list string).

(** [_get_state(name)], after unpickling. *)
Definition get_state (e : exp) (name : string) : list state_item :=
  [SName name; SId (experiment_id e);
   SParams (deref (heap e) (prompt_keys e)) (deepcopy_args e);
   SFrame (full_df e); SCols (colnames (partial_df e));
   SCols (colnames (score_df e))].

(** [_load_state(state, experiment_id)]. The persisted items are taken in
    the shape [_get_state] gives them; a four-item tuple of another shape
    is modelled as a [TypeError] (the other shapes Python could still
    accept, such as a raw list of rows for [full], are not modelled). *)
Definition load_state (env : environ) (state : list state_item)
    (experiment_id : string) : res exp :=
  match state with
  | [SParams pk aa; SFrame df; SCols pcols; SCols scols] =>
      match dict_get aa "model", dict_get aa "messages" with
      | Some model, Some messages =>
          let '(st, args) := alloc_default_ctor (mkStore ∅ 0) model messages in
          match init env st args with
          | Exc x => Exc x
          | Ok e0 =>
              let '(st1, pkl) := alloc (heap e0) pk in
              let '(st2, aal) := alloc_dict st1 aa in
              match project df pcols with
              | Exc x => Exc x
              | Ok pdf =>
                  match project df scols with
                  | Exc x => Exc x
                  | Ok sdf =>
                      Ok (mkExp st2 aal pkl (argument_combos e0) (exq e0)
                            df pdf sdf (Some experiment_id) (tabulated e0))
                  end
              end
          end
      | _, _ => Exc KeyError
      end
  | [_; _; _; _] => Exc TypeError
  | _ => Exc ValueError    (* unpacking into four names *)
  end.

(* ------------------------------------------------------------------ *)
(** ** Execution: [run_partial] *)

Section Execution.

(** [self.completion_fn]: given the keyword arguments it returns the raw
    response and the latency measured around the call, or raises. *)
Variable completion_fn : pydict value -> res (value * Q).

(** [self._extract_responses], as the aggregator applies it. *)
Variable extract_responses : value -> value.

(** Modelled from the spec: [ExecutionQueue.enqueue] calls the function
    with the keyword arguments and appends the arguments, result and
    latency; a raising call propagates and appends nothing. *)
Definition enqueue (kwargs : pydict value) : M unit := fun e =>
  match completion_fn kwargs with
  | Ok (r, lat) =>
      let q := exq e in
      (set_queue e (mkQueue (q_input_args q ++ [kwargs]) (q_results q ++ [r])
                      (q_latencies q ++ [lat])), Ok tt)
  | Exc x => (e, Exc x)
  end.

(** The input columns: every key of the input arguments, in order of first
    appearance. *)
Definition add_keys (acc : list string) (kw : pydict value) : list string :=
  foldl (fun acc k => if existsb (String.eqb k) acc then acc else acc ++ [k])
    acc (map fst kw).

Definition input_columns (inputs : list (pydict value)) : list string :=
  foldl add_keys [] inputs.

(** [a] followed by the names of [b] it lacks, in order: the column set
    of a DataFrame concatenation. *)
Definition union_cols (a b : list string) : list string :=
  foldl (fun acc k => if existsb (String.eqb k) acc then acc else acc ++ [k]) a b.

(** The values of the column [k] of [df] (the first column of that name);
    a column [df] lacks reads as "not available" (None) on every row. *)
Definition col_values (df : frame) (k : string) : list value :=
  match List.find (fun c => String.eqb c.1 k) (columns df) with
  | Some c => c.2
  | None => repeat VNone (length (index df))
  end.

(** The cell of column [k] in the row of a queued record
    (input arguments, raw result, latency). *)
Definition record_value (r : pydict value * value * Q) (k : string) : value :=
  if String.eqb k "response" then extract_responses r.1.2
  else if String.eqb k "latency" then VNum r.2
  else default VNone (dict_get r.1.1 k).

(** Modelled from the spec: [Experiment._construct_result_dfs] (the base
    class, not part of this file). The records of the queue past the
    [tabulated] ones become new rows, appended after the rows [full]
    already has (a restored table included): each row holds every input
    column, the extracted response and the latency. The columns are those
    of [full] followed by the new ones; a cell with no value is None, the
    "not available" marker. [partial] and [score] are re-derived from the
    new [full] by projection: [score] onto the columns [score] already has,
    [partial] onto the others. *)
Definition construct_result_dfs (inputs : list (pydict value))
    (results : list value) (latencies : list Q) : M unit := fun e =>
  let recs := zip (zip inputs results) latencies in
  let fresh := drop (tabulated e) recs in
  let old := full_df e in
  let cols := union_cols (colnames old)
                (input_columns (map (fun r => r.1.1) fresh) ++ ["response"; "latency"]) in
  let idx := index old ++ seq (length (index old)) (length fresh) in
  let full :=
    mkFrame idx (map (fun k => (k, col_values old k ++ map (fun r => record_value r k) fresh))
                   cols) in
  let is_score (c : string * list value) := existsb (String.eqb c.1) (colnames (score_df e)) in
  (mkExp (heap e) (all_args e) (prompt_keys e) (argument_combos e) (exq e)
     full (mkFrame idx (List.filter (fun c => negb (is_score c)) (columns full)))
     (mkFrame idx (List.filter is_score (columns full))) (experiment_id e) (length recs),
   Ok tt).

(** Modelled from the spec: [Experiment.prepare] recomputes the argument
    combos from [all_args]. *)
Definition prepare : M unit := fun e =>
  (mkExp (heap e) (all_args e) (prompt_keys e) (combos_of (deepcopy_args e))
     (exq e) (full_df e) (partial_df e) (score_df e) (experiment_id e) (tabulated e), Ok tt).

(** [self.all_args[arg_name].append(arg_value)] *)
Definition append_arg (l : loc) (arg_value : value) : M unit := fun e =>
  (mkExp (append_at (heap e) l arg_value) (all_args e) (prompt_keys e)
     (argument_combos e) (exq e) (full_df e) (partial_df e) (score_df e)
     (experiment_id e) (tabulated e), Ok tt).

(** The combos of a partial run: the stored lists, deep-copied, with the
    named parameter replaced by the one-element list of the new value. *)
Definition partial_combos (e : exp) (arg_name : string) (arg_value : value)
  : list (pydict value) :=
  combos_of (dict_set (deepcopy_args e) arg_name [arg_value]).

(** The loop [for combo in partial_argument_combos: self.queue.enqueue(...)]. *)
Definition dispatch (combos : list (pydict value)) : M unit :=
  for_each combos (fun combo => enqueue (strip_defaults combo)).

(** [run_partial( **kwargs)] *)
Definition run_partial (kwargs : pydict value) : M unit :=
  if Nat.ltb 1 (length kwargs) then raise RuntimeError else
  match kwargs with
  | [] => raise IndexError        (* list(kwargs.items())[0] *)
  | (arg_name, arg_value) :: _ =>
      e ← get_exp;
      let original_n_results := length (q_results (exq e)) in
      dispatch (partial_combos e arg_name arg_value) ;;
      e1 ← get_exp;
      if Z.eqb (Z.of_nat original_n_results - Z.of_nat (length (q_results (exq e1)))) 0
      then raise PromptExperimentException
      else
        construct_result_dfs (q_input_args (exq e1)) (q_results (exq e1))
          (q_latencies (exq e1)) ;;
        e2 ← get_exp;
        match dict_get (all_args e2) arg_name with
        | None => raise KeyError
        | Some l =>
            if negb (py_in arg_value (deref (heap e2) l))
            then append_arg l arg_value ;; prepare
            else mret tt
        end
  end.

(** [_validate_arg_key(arg_name)]: the names of [__init__]'s parameters,
    except [azure_openai_service_configs]. *)
Definition init_param_names : list string :=
  ["model"; "messages"; "temperature"; "top_p"; "n"; "stream"; "stop";
   "max_tokens"; "presence_penalty"; "frequency_penalty"; "logit_bias";
   "functions"; "function_call"; "azure_openai_service_configs"].

Definition validate_arg_key (arg_name : string) : res unit :=
  if existsb (String.eqb arg_name) init_param_names
     && negb (String.eqb arg_name "azure_openai_service_configs")
  then Ok tt else Exc RuntimeError.

End Execution.

(* ------------------------------------------------------------------ *)
(** ** Reading the argument combos: [_get_model_names] and [_get_prompts] *)

(** A list comprehension over a list whose element expression may raise:
    the first exception propagates. *)
Fixpoint map_res {A B} (f : A -> res B) (xs : list A) : res (list B) :=
  match xs with
  | [] => Ok []
  | x :: xs' =>
      match f x with
      | Exc e => Exc e
      | Ok y => match map_res f xs' with Exc e => Exc e | Ok ys => Ok (y :: ys) end
      end
  end.

(** [combo["model"]] *)
Definition combo_model (combo : pydict value) : res value :=
  match dict_get combo "model" with Some m => Ok m | None => Exc KeyError end.

(** [_get_model_names()] *)
Definition get_model_names (e : exp) : res (list value) :=
  map_res combo_model (argument_combos e).

(** [v[-1]]: the last element of a list, the last character of a str;
    a dict has no key [-1] (its keys are strings); other values are not
    subscriptable. *)
Definition getitem_last (v : value) : res value :=
  match v with
  | VList xs => match last xs with Some x => Ok x | None => Exc IndexError end
  | VStr s =>
      match String.length s with
      | 0 => Exc IndexError
      | S n => Ok (VStr (String.substring n 1 s))
      end
  | VDict _ => Exc KeyError
  | _ => Exc TypeError
  end.

(** [v[k]] for a str key [k]: a dict lookup; list and str indices must be
    integers, other values are not subscriptable. *)
Definition getitem_str (v : value) (k : string) : res value :=
  match v with
  | VDict kvs => match dict_get kvs k with Some x => Ok x | None => Exc KeyError end
  | _ => Exc TypeError
  end.

Section Prompts.

(** [str(v)]: how Python renders a value as a str. *)
Variable py_str : value -> string.

(** [self.prompt_keys[str(combo["messages"][-1]["content"])]]. With message
    lists given to the constructor, [prompt_keys] is that list object: it
    is subscripted by the str key. *)
Definition get_prompt (e : exp) (combo : pydict value) : res value :=
  match dict_get combo "messages" with
  | None => Exc KeyError
  | Some msgs =>
      match getitem_last msgs with
      | Exc x => Exc x
      | Ok last_msg =>
          match getitem_str last_msg "content" with
          | Exc x => Exc x
          | Ok content =>
              getitem_str (VList (deref (heap e) (prompt_keys e))) (py_str content)
          end
      end
  end.

(** [_get_prompts()] *)
Definition get_prompts (e : exp) : res (list value) :=
  map_res (get_prompt e) (argument_combos e).

End Prompts.

(* ------------------------------------------------------------------ *)
(** ** Persistence over HTTP: [save_experiment] and [load_experiment] *)

(** [self._experiment_id = id] *)
Definition set_experiment_id (e : exp) (id : option string) : exp :=
  mkExp (heap e) (all_args e) (prompt_keys e) (argument_combos e) (exq e)
    (full_df e) (partial_df e) (score_df e) id (tabulated e).

(** [save_experiment(name)]. [hegelai_key] is [os.environ.get("HEGELAI_API_KEY")];
    [post] is the server: given the unpickled payload it answers a JSON
    object (with string values). [os.environ[...]] raises [KeyError] when
    the variable is unset and otherwise gives a str, which is never [None],
    so the [PermissionError] branch is not taken. *)
Definition save_experiment (hegelai_key : option string)
    (post : list state_item -> pydict string) (name : string) : M (pydict string) :=
  fun e =>
  match hegelai_key with
  | None => (e, Exc KeyError)
  | Some _ =>
      let response := post (get_state e name) in
      (set_experiment_id e (dict_get response "experiment_id"), Ok response)
  end.

(** [OpenAIChatExperiment.load_experiment(experiment_id)]. [get] is the
    server: given the id it answers a status code and the unpickled content.
    A status other than 200 is printed and [None] returned. *)
Definition load_experiment (hegelai_key : option string) (env : environ)
    (get : string -> nat * list state_item) (experiment_id : string) : res (option exp) :=
  match hegelai_key with
  | None => Exc KeyError
  | Some _ =>
      let '(status_code, content) := get experiment_id in
      if Nat.eqb status_code 200 then
        match load_state env content experiment_id with
        | Ok e => Ok (Some e)
        | Exc x => Exc x
        end
      else Ok None
  end.

(* ------------------------------------------------------------------ *)
(** ** Concrete experiments *)

Definition example_env : environ := mkEnviron false None.

Definition example_messages : list value :=
  [VList [VDict [("role", VStr "user"); ("content", VStr "Who was the first president?")]]].

(** A completion call that always answers, after one second. *)
Definition ok_completion (kwargs : pydict value) : res (value * Q) :=
  Ok (VStr "George Washington", 1%Q).

Definition identity_response (v : value) : value := v.

(** The experiment a successful construction returns (the examples below
    construct successfully, see [example_experiment_constructed] and the
    like). *)
Definition experiment_of (r : res exp) : exp :=
  match r with Ok e => e | Exc _ => base_init (mkStore ∅ 0) [] 0 end.

(** [OpenAIChatExperiment(model=["m1", "m2"], messages=...)] *)
Definition example_ctor : store * ctor_args :=
  alloc_default_ctor (mkStore ∅ 0) [VStr "m1"; VStr "m2"] example_messages.

Definition example_experiment : exp :=
  experiment_of (init example_env example_ctor.1 example_ctor.2).

(** The same, after [run_partial(model="m3")]. *)
Definition example_after_run : exp :=
  fst (run_partial ok_completion identity_response [("model", VStr "m3")]
         example_experiment).

(** [t = [1.0]; OpenAIChatExperiment(model=["m1", "m2"], messages=...,
    temperature=t, top_p=t)]: two parameters given the same list. *)
Definition aliased_ctor : store * ctor_args :=
  let a := example_ctor.2 in
  (example_ctor.1,
   mkCtorArgs (a_model a) (a_messages a) (a_temperature a) (a_temperature a)
     (a_n a) (a_stream a) (a_stop a) (a_max_tokens a) (a_presence_penalty a)
     (a_frequency_penalty a) (a_logit_bias a) (a_functions a)
     (a_function_call a) None).

Definition aliased_experiment : exp :=
  experiment_of (init example_env aliased_ctor.1 aliased_ctor.2).

(** [OpenAIChatExperiment(model=["m1", "m2"], messages=..., temperature=[])] *)
Definition empty_temperature_ctor : store * ctor_args :=
  let '(st, l) := alloc example_ctor.1 [] in
  let a := example_ctor.2 in
  (st, mkCtorArgs (a_model a) (a_messages a) l (a_top_p a)
         (a_n a) (a_stream a) (a_stop a) (a_max_tokens a) (a_presence_penalty a)
         (a_frequency_penalty a) (a_logit_bias a) (a_functions a)
         (a_function_call a) None).

Definition empty_temperature_experiment : exp :=
  experiment_of (init example_env empty_temperature_ctor.1 empty_temperature_ctor.2).




(** A persisted tuple with a scored [full] table: the partial columns
    [model] and [response], the score column [similarity]. *)
Definition scored_state : list state_item :=
  [SParams example_messages [("model", [VStr "m1"]); ("messages", example_messages)];
   SFrame (mkFrame [0; 1] [("model", [VStr "m1"; VStr "m1"]);
                           ("response", [VStr "ok"; VStr "fine"]);
                           ("similarity", [VNum (9 # 10); VNum (1 # 2)])]);
   SCols ["model"; "response"]; SCols ["similarity"]].

(** A persisted tuple whose column lists select nothing. *)
Definition no_views_state : list state_item :=
  [SParams example_messages [("model", [VStr "m1"]); ("messages", example_messages)];
   SFrame (mkFrame [0] [("model", [VStr "m1"]); ("response", [VStr "ok"])]);
   SCols []; SCols []].

(** The argument record with another [azure_openai_service_configs]. *)
Definition with_azure_configs (a : ctor_args) (cfg : option (pydict value)) : ctor_args :=
  mkCtorArgs (a_model a) (a_messages a) (a_temperature a) (a_top_p a) (a_n a)
    (a_stream a) (a_stop a) (a_max_tokens a) (a_presence_penalty a)
    (a_frequency_penalty a) (a_logit_bias a) (a_functions a) (a_function_call a) cfg.

(** The list objects the constructor receives. *)
Definition ctor_locs (a : ctor_args) : list loc :=
  [a_model a; a_messages a; a_temperature a; a_top_p a; a_n a; a_stream a;
   a_stop a; a_max_tokens a; a_presence_penalty a; a_frequency_penalty a;
   a_logit_bias a; a_functions a; a_function_call a].

Definition azure_env : environ := mkEnviron false (Some "azure-key").

Definition azure_configs : pydict value :=
  [("AZURE_OPENAI_ENDPOINT", VStr "https://example.openai.azure.com");
   ("API_TYPE", VStr "azure"); ("API_VERSION", VStr "2023-05-15")].

(** [OpenAIChatExperiment(model=["m1", "m2"], messages=...,
    azure_openai_service_configs={...})] *)
Definition azure_experiment : exp :=
  experiment_of (init azure_env example_ctor.1
                   (with_azure_configs example_ctor.2 (Some azure_configs))).


(** A server that stores nothing and answers a fixed id. *)
Definition id_server (payload : list state_item) : pydict string :=
  [("experiment_id", "exp-1")].

(** The column lists [ps] and [ss] partition [all]: together they cover
    it, and no name is in both. *)
Definition partitions (all ps ss : list string) : Prop :=
  (forall c, In c all <-> In c ps \/ In c ss) /\ (forall c, In c ps -> ~ In c ss).

(* ================================================================== *)
(** * Properties *)

(** The values a partial run strips before dispatch. *)
Definition is_sentinel (v : value) : bool :=
  match v with VNone | VInf => true | _ => false end.

Lemma py_eq_inf_iff (v : value) : py_eq v VInf = true <-> v = VInf.
Proof. destruct v; simpl; split; congruence. Qed.

Lemma strip_defaults_sentinel (c : pydict value) :
  strip_defaults c = List.filter (fun kv => negb (is_sentinel kv.2)) c.
Proof.
  unfold strip_defaults. apply List.filter_ext; intros [k v]; simpl.
  destruct v; reflexivity.
Qed.

Lemma strip_defaults_clean (c : pydict value) :
  Forall (fun kv => is_sentinel kv.2 = false) (strip_defaults c).
Proof.
  rewrite strip_defaults_sentinel. apply List.Forall_forall.
  intros kv Hin%List.filter_In. destruct Hin as [_ H].
  destruct (is_sentinel kv.2); [discriminate | reflexivity].
Qed.

(** What the dispatch loop does: only the queue changes; it grows by the
    stripped first [k] combos, all of them when the loop returns. *)
Lemma dispatch_spec (cf : pydict value -> res (value * Q))
    (combos : list (pydict value)) (e e1 : exp) (r : res unit) :
  dispatch cf combos e = (e1, r) ->
  e1 = set_queue e (exq e1) /\
  exists k rs ls, k <= length combos /\
    q_input_args (exq e1) = q_input_args (exq e) ++ map strip_defaults (take k combos) /\
    q_results (exq e1) = q_results (exq e) ++ rs /\ length rs = k /\
    q_latencies (exq e1) = q_latencies (exq e) ++ ls /\ length ls = k /\
    (r = Ok tt -> k = length combos).
Proof.
  unfold dispatch. revert e e1 r.
  induction combos as [|c combos IH]; intros e e1 r H; simpl in H.
  - inversion H; subst. destruct e1; split; [reflexivity|].
    exists 0, [], []. simpl. rewrite !app_nil_r. repeat split; auto; lia.
  - unfold mbind, M_bind, enqueue in H.
    destruct (cf (strip_defaults c)) as [[res0 lat]|x] eqn:Hc.
    + apply IH in H as [Hq [k [rs [ls (Hk & Hi & Hr & Hrl & Hl & Hll & Hok)]]]].
      simpl in *. split.
      * rewrite Hq. destruct e; reflexivity.
      * exists (S k), (res0 :: rs), (lat :: ls). simpl.
        rewrite Hi, Hr, Hl, <- !app_assoc. simpl.
        repeat split; auto; try lia.
    + inversion H; subst. split; [destruct e1; reflexivity|].
      exists 0, [], []. simpl. rewrite !app_nil_r.
      repeat split; auto; try lia. discriminate.
Qed.

Lemma deref_append_at (st : store) (l0 l : loc) (v : value) :
  deref (append_at st l0 v) l = if decide (l0 = l) then deref st l ++ [v] else deref st l.
Proof.
  unfold deref, append_at; simpl. rewrite lookup_insert.
  case_decide; subst; reflexivity.
Qed.

(** Unfolds one partial run up to the dispatch loop. *)
Ltac unfold_run_partial Hd :=
  unfold run_partial; simpl; unfold mbind, M_bind, get_exp;
  match goal with
  | |- context [dispatch ?cf ?cs ?e] =>
      destruct (dispatch cf cs e) as [?e1 [[]|?x]] eqn:Hd
  end.

(** The steps after the dispatch loop leave the queue, [all_args] and (save
    for the append) the store as they are. *)
Lemma construct_result_dfs_frame ex ins rs ls e :
  let e' := (construct_result_dfs ex ins rs ls e).1 in
  heap e' = heap e /\ all_args e' = all_args e /\ exq e' = exq e.
Proof. repeat split. Qed.

Lemma prepare_frame e :
  let e' := (prepare e).1 in
  heap e' = heap e /\ all_args e' = all_args e /\ exq e' = exq e /\
  full_df e' = full_df e.
Proof. repeat split. Qed.

Example example_experiment_constructed :
  init example_env example_ctor.1 example_ctor.2 = Ok example_experiment.
Proof. vm_compute. reflexivity. Qed.

Example aliased_experiment_constructed :
  init example_env aliased_ctor.1 aliased_ctor.2 = Ok aliased_experiment.
Proof. vm_compute. reflexivity. Qed.

Example empty_temperature_experiment_constructed :
  init example_env empty_temperature_ctor.1 empty_temperature_ctor.2
  = Ok empty_temperature_experiment.
Proof. vm_compute. reflexivity. Qed.

(** ** Helper lemmas *)

Lemma run_partial_store_effect cf ex e n v e' r :
  run_partial cf ex [(n, v)] e = (e', r) ->
  all_args e' = all_args e /\
  (forall x, r = Exc x -> heap e' = heap e) /\
  (r = Ok tt -> exists l, dict_get (all_args e) n = Some l /\
      heap e' = if py_in v (deref (heap e) l) then heap e
                else append_at (heap e) l v).
Proof.
  unfold_run_partial Hd.
  all: apply dispatch_spec in Hd as [Hq _]; rewrite Hq; clear Hq; simpl.
  - destruct (Z.eqb _ _).
    + unfold raise. intros [= <- <-]. simpl. repeat split; try discriminate.
    + simpl. destruct (dict_get (all_args e) n) as [l|] eqn:Hl.
      * destruct (py_in v (deref (heap e) l)) eqn:Hin; simpl;
          intros [= <- <-]; simpl; repeat split; try discriminate;
          intros _; exists l; rewrite Hin; auto.
      * unfold raise. intros [= <- <-]. simpl. repeat split; discriminate.
  - intros [= <- <-]. simpl. repeat split; discriminate.
Qed.

Lemma run_partial_queue_effect cf ex e n v e' r :
  run_partial cf ex [(n, v)] e = (e', r) ->
  exists e1 r1, dispatch cf (partial_combos e n v) e = (e1, r1) /\ exq e' = exq e1.
Proof.
  unfold_run_partial Hd.
  - destruct (Z.eqb _ _).
    + unfold raise. intros [= <- <-]. eauto.
    + simpl. destruct (dict_get _ n) as [l|].
      * destruct (py_in _ _); simpl; intros [= <- <-]; eauto.
      * unfold raise. intros [= <- <-]. eauto.
  - intros [= <- <-]. eauto.
Qed.

Lemma stripped_prefix (combos : list (pydict value)) (k : nat) :
  k <= length combos ->
  let sent := map strip_defaults (take k combos) in
  Forall (fun kw => Forall (fun kv => is_sentinel kv.2 = false) kw) sent /\
  sent = map (List.filter (fun kv => negb (is_sentinel kv.2)))
           (take (length sent) combos).
Proof.
  intros Hk sent. subst sent. split.
  - apply List.Forall_forall. intros kw Hin. apply in_map_iff in Hin as [c [<- _]].
    apply strip_defaults_clean.
  - rewrite length_map, length_take, Nat.min_l by lia.
    apply map_ext. intros c. apply strip_defaults_sentinel.
Qed.

Lemma deref_prefix_append st l0 v l : deref st l `prefix_of` deref (append_at st l0 v) l.
Proof. rewrite deref_append_at. case_decide; [by eexists | done]. Qed.

Lemma filter_no_col (cols : list (string * list value)) (n : string) :
  n ∉ map fst cols -> List.filter (fun c => String.eqb c.1 n) cols = [].
Proof.
  induction cols as [|[k xs] cols IH]; simpl; [reflexivity|].
  intros Hn. rewrite not_elem_of_cons in Hn. destruct Hn as [Hne Hn].
  destruct (String.eqb_spec k n); [congruence|]. auto.
Qed.

Lemma filter_unique_col (cols : list (string * list value)) (n : string) :
  NoDup (map fst cols) -> existsb (String.eqb n) (map fst cols) = true ->
  exists c, List.filter (fun c => String.eqb c.1 n) cols = [c] /\ c.1 = n.
Proof.
  induction cols as [|[k xs] cols IH]; simpl; [discriminate|].
  intros Hnd Hex. apply NoDup_cons in Hnd as [Hnin Hnd].
  destruct (String.eqb_spec k n) as [->|Hne].
  - exists (n, xs). rewrite filter_no_col by exact Hnin. auto.
  - apply IH; auto. destruct (String.eqb_spec n k); [congruence|exact Hex].
Qed.

Lemma project_ok (df p : frame) (names : list string) :
  project df names = Ok p ->
  index p = index df /\ forallb (has_col df) names = true /\
  columns p = flat_map (fun n => List.filter (fun c => String.eqb c.1 n) (columns df)) names.
Proof.
  unfold project. destruct (forallb _ _) eqn:Hf; intros [= <-]. auto.
Qed.

Lemma project_colnames (df p : frame) (names : list string) :
  NoDup (colnames df) -> project df names = Ok p -> colnames p = names.
Proof.
  intros Hnd (_ & Hf & Hc)%project_ok. unfold colnames. rewrite Hc.
  clear Hc. induction names as [|n names IH]; simpl in *; [reflexivity|].
  apply andb_prop in Hf as [Hn Hf].
  destruct (filter_unique_col (columns df) n Hnd Hn) as [c [-> Hc]].
  simpl. rewrite Hc, IH; auto.
Qed.

Lemma project_incl (df p : frame) (names : list string) :
  project df names = Ok p -> incl (colnames p) (colnames df).
Proof.
  intros (_ & _ & Hc)%project_ok. unfold colnames. rewrite Hc.
  intros n Hin. apply in_map_iff in Hin as [c [<- Hin]].
  apply in_flat_map in Hin as [m [_ Hin]]. apply List.filter_In in Hin as [Hin _].
  apply in_map. exact Hin.
Qed.

Lemma has_cols_incl (df : frame) (names : list string) :
  forallb (has_col df) names = true -> incl names (colnames df).
Proof.
  intros Hf n Hn. apply List.forallb_forall with (x := n) in Hf; [|exact Hn].
  unfold has_col in Hf. apply existsb_exists in Hf as [m [Hm Heq]].
  apply String.eqb_eq in Heq. subst. exact Hm.
Qed.

Lemma forallb_exists_false {A} (f : A -> bool) (l : list A) :
  Exists (fun x => f x = false) l -> forallb f l = false.
Proof.
  induction 1 as [x l Hx|x l _ IH]; simpl; [rewrite Hx|rewrite IH, andb_false_r]; reflexivity.
Qed.

Lemma init_default_ok env (model : list value) m ms :
  exists e0, init env (alloc_default_ctor (mkStore ∅ 0) model (m :: ms)).1
                      (alloc_default_ctor (mkStore ∅ 0) model (m :: ms)).2 = Ok e0.
Proof.
  destruct env as [[] key]; vm_compute; eauto.
Qed.








(** ** C1: the snapshot/restore round trip *)

(** C1 (counterexample). Handing the tuple built by [_get_state] to
    [_load_state] does not restore the experiment: the six-item tuple
    (name, id, params, full, partial names, score names) is unpacked into
    four names and Python raises [ValueError]. *)
Lemma load_state_of_get_state_fails :
  load_state example_env (get_state example_after_run "demo") "exp-1" = Exc ValueError.
Proof. vm_compute. reflexivity. Qed.

(** C1 (amended). Restoring the snapshot without its name and id (the
    four-item tuple that [load_experiment] expects back from the server),
    when the stored [all_args] has a ["model"] entry and a non-empty
    ["messages"] entry, succeeds and yields the original [full] table, and
    [partial] and [score] re-derived by projection equal the originals
    whenever those were projections of [full] with unique column names. *)
Theorem restore_snapshot_tables env e name id model m ms :
  dict_get (deepcopy_args e) "model" = Some model ->
  dict_get (deepcopy_args e) "messages" = Some (m :: ms) ->
  NoDup (colnames (full_df e)) ->
  (exists pc, project (full_df e) pc = Ok (partial_df e)) ->
  (exists sc, project (full_df e) sc = Ok (score_df e)) ->
  exists e', load_state env (drop 2 (get_state e name)) id = Ok e' /\
    full_df e' = full_df e /\ partial_df e' = partial_df e /\ score_df e' = score_df e.
Proof.
  intros Hm Hmsg Hnd [pc Hp] [sc Hs]. unfold get_state. cbn [drop]. unfold load_state.
  rewrite Hm, Hmsg.
  destruct (init_default_ok env model m ms) as [e0 He0].
  destruct (alloc_default_ctor (mkStore ∅ 0) model (m :: ms)) as [st args].
  simpl in He0. rewrite He0.
  destruct (alloc (heap e0) _) as [st1 pkl], (alloc_dict st1 _) as [st2 aal].
  rewrite (project_colnames _ _ _ Hnd Hp), (project_colnames _ _ _ Hnd Hs), Hp, Hs.
  eexists. split; [reflexivity|]. auto.
Qed.

Lemma restore_snapshot_tables_witness :
  exists e', load_state example_env (drop 2 (get_state example_after_run "demo")) "exp-1" = Ok e' /\
    full_df e' = full_df example_after_run /\ partial_df e' = partial_df example_after_run /\
    score_df e' = score_df example_after_run.
Proof.
  apply (restore_snapshot_tables example_env example_after_run "demo" "exp-1"
           [VStr "m1"; VStr "m2"; VStr "m3"] (hd VNone example_messages) []).
  - vm_compute. reflexivity.
  - vm_compute. reflexivity.
  - apply (bool_decide_unpack _). vm_compute. reflexivity.
  - exists (colnames (full_df example_after_run)). vm_compute. reflexivity.
  - exists []. vm_compute. reflexivity.
Defined.
(** ** C2: sentinel values are stripped before dispatch *)

(** C2. Every keyword set a partial run dispatches is its combo with
    exactly the None and inf entries removed, so none of them carries a
    sentinel value; and the stored parameter lists keep all their entries
    (the mapping [all_args] is the same object map, and every list is at
    most extended). *)
Theorem run_partial_strips_sentinels cf ex kwargs e e' r :
  run_partial cf ex kwargs e = (e', r) ->
  exists sent, q_input_args (exq e') = q_input_args (exq e) ++ sent /\
    Forall (fun kw => Forall (fun kv => is_sentinel kv.2 = false) kw) sent /\
    (forall n v, kwargs = [(n, v)] ->
       sent = map (List.filter (fun kv => negb (is_sentinel kv.2)))
                (take (length sent) (partial_combos e n v))) /\
    all_args e' = all_args e /\
    (forall l, deref (heap e) l `prefix_of` deref (heap e') l).
Proof.
  destruct kwargs as [|[n v] [|kv rest]].
  - intros [= <- <-]. exists []. rewrite app_nil_r.
    repeat split; auto; intros ? ? [=].
  - intros H.
    pose proof (run_partial_store_effect _ _ _ _ _ _ _ H) as (Hargs & Hexc & Hok).
    apply run_partial_queue_effect in H as (e1 & r1 & Hd & Hq).
    apply dispatch_spec in Hd as [_ (k & rs & ls & Hk & Hi & _)].
    destruct (stripped_prefix _ _ Hk) as [Hclean Hsent].
    exists (map strip_defaults (take k (partial_combos e n v))).
    rewrite Hq, Hi. repeat split; auto.
    + intros ? ? [= <- <-]. exact Hsent.
    + intros l. destruct r as [[]|x].
      * destruct (Hok eq_refl) as (l0 & _ & ->).
        destruct (py_in _ _); [done | apply deref_prefix_append].
      * rewrite (Hexc x eq_refl). done.
  - intros [= <- <-]. exists []. rewrite app_nil_r.
    repeat split; auto; intros ? ? [=].
Qed.


Lemma run_partial_strips_sentinels_witness :
  run_partial ok_completion identity_response [("model", VStr "m3")] example_experiment
    = (example_after_run, Ok tt) /\
  exists sent, q_input_args (exq example_after_run) = q_input_args (exq example_experiment) ++ sent /\
    Forall (fun kw => Forall (fun kv => is_sentinel kv.2 = false) kw) sent /\
    (forall n v, [("model", VStr "m3")] = [(n, v)] ->
       sent = map (List.filter (fun kv => negb (is_sentinel kv.2)))
                (take (length sent) (partial_combos example_experiment n v))) /\
    all_args example_after_run = all_args example_experiment /\
    (forall l, deref (heap example_experiment) l `prefix_of` deref (heap example_after_run) l).
Proof.
  assert (H : run_partial ok_completion identity_response [("model", VStr "m3")] example_experiment
              = (example_after_run, Ok tt)) by (vm_compute; reflexivity).
  split; [exact H|]. exact (run_partial_strips_sentinels _ _ _ _ _ _ H).
Defined.
(** ** C3: a partial run without new records raises *)

(** C3. When the dispatch loop of a partial run completes and the queue has
    as many results as before, [run_partial] raises
    [PromptExperimentException] and the queue is exactly the previous one;
    when the loop added results, the run does not raise that exception and
    the previous results stay a prefix of the queue. *)
Theorem run_partial_no_progress cf ex e n v e1 :
  dispatch cf (partial_combos e n v) e = (e1, Ok tt) ->
  (length (q_results (exq e1)) = length (q_results (exq e)) ->
     run_partial cf ex [(n, v)] e = (e1, Exc PromptExperimentException) /\
     exq e1 = exq e) /\
  (length (q_results (exq e1)) <> length (q_results (exq e)) ->
     snd (run_partial cf ex [(n, v)] e) <> Exc PromptExperimentException /\
     q_results (exq e) `prefix_of` q_results (exq (fst (run_partial cf ex [(n, v)] e)))).
Proof.
  intros Hd. pose proof (dispatch_spec _ _ _ _ _ Hd) as [Hq (k & rs & ls & Hk & Hi & Hr & Hrl & Hl & Hll & Hok)].
  unfold run_partial; simpl; unfold mbind, M_bind, get_exp. rewrite Hd.
  split.
  - intros Hlen. rewrite Hlen, Z.sub_diag. simpl. split; [reflexivity|].
    rewrite Hr, length_app in Hlen.
    assert (k = 0) as -> by lia. destruct rs; [|discriminate]. destruct ls; [|discriminate].
    destruct (exq e1) as [i1 r1 l1], (exq e) as [i0 r0 l0]; simpl in *.
    subst. rewrite !app_nil_r. reflexivity.
  - intros Hlen.
    replace (Z.of_nat _ - Z.of_nat _ =? 0)%Z with false by lia.
    simpl. destruct (dict_get _ n) as [l|].
    + destruct (py_in _ _); simpl; split; try discriminate; rewrite Hr; by eexists.
    + unfold raise; simpl. split; try discriminate. rewrite Hr; by eexists.
Qed.

Lemma run_partial_no_progress_witness :
  dispatch ok_completion (partial_combos empty_temperature_experiment "model" (VStr "m3"))
    empty_temperature_experiment = (empty_temperature_experiment, Ok tt) /\
  run_partial ok_completion identity_response [("model", VStr "m3")] empty_temperature_experiment
    = (empty_temperature_experiment, Exc PromptExperimentException) /\
  exq empty_temperature_experiment = exq empty_temperature_experiment.
Proof.
  assert (Hd : dispatch ok_completion (partial_combos empty_temperature_experiment "model" (VStr "m3"))
                 empty_temperature_experiment = (empty_temperature_experiment, Ok tt))
    by (vm_compute; reflexivity).
  split; [exact Hd|].
  apply (proj1 (run_partial_no_progress ok_completion identity_response _ _ _ _ Hd)).
  reflexivity.
Defined.
(** ** C4: an unknown parameter name in a partial run *)

(** C4 (code bug). [run_partial(foo=1)] never calls [_validate_arg_key],
    which rejects ["foo"]: it dispatches both combos (each now carrying
    [foo=1]) and appends their results, and only then fails with
    [KeyError] at [self.all_args[arg_name]]. *)
Theorem run_partial_unknown_name_executes :
  validate_arg_key "foo" = Exc RuntimeError /\
  length (q_results (exq example_experiment)) = 0 /\
  let '(e', r) := run_partial ok_completion identity_response [("foo", VNum 1)]
                    example_experiment in
  r = Exc KeyError /\ length (q_results (exq e')) = 2 /\
  all_args e' = all_args example_experiment.
Proof. vm_compute. repeat split. Qed.
(** ** C5: scenario C, a new model *)





(** ** C6: restoring with a missing column *)

(** C6. If a persisted partial or score column name is not a column of the
    persisted [full] table, [_load_state] raises: no experiment results. *)
Theorem restore_missing_column_fails env pk aa df pcols scols id :
  Exists (fun n => has_col df n = false) (pcols ++ scols) ->
  forall e, load_state env [SParams pk aa; SFrame df; SCols pcols; SCols scols] id <> Ok e.
Proof.
  intros Hmiss e. apply Exists_app in Hmiss.
  unfold load_state.
  destruct (dict_get aa "model"), (dict_get aa "messages"); try discriminate.
  destruct (alloc_default_ctor _ _ _) as [st args].
  destruct (init env st args) as [e0|x]; [|discriminate].
  destruct (alloc (heap e0) pk) as [st1 pkl], (alloc_dict st1 aa) as [st2 aal].
  unfold project at 1. destruct Hmiss as [Hp|Hs].
  - rewrite (forallb_exists_false _ _ Hp). discriminate.
  - destruct (forallb (has_col df) pcols); [|discriminate].
    unfold project. rewrite (forallb_exists_false _ _ Hs). discriminate.
Qed.


Lemma restore_missing_column_fails_witness :
  Exists (fun n => has_col (mkFrame [0] [("model", [VStr "m1"])]) n = false) (["response"] ++ []) /\
  forall e, load_state example_env
              [SParams [] [("model", [VStr "m1"]); ("messages", example_messages)];
               SFrame (mkFrame [0] [("model", [VStr "m1"])]); SCols ["response"]; SCols []]
              "exp-1" <> Ok e.
Proof.
  assert (H : Exists (fun n => has_col (mkFrame [0] [("model", [VStr "m1"])]) n = false)
                (["response"] ++ [])) by (constructor; reflexivity).
  split; [exact H|]. exact (restore_missing_column_fails _ _ _ _ _ _ _ H).
Defined.
(** ** C7: the views after a restore *)

(** C7 (counterexample). [_load_state] accepts column lists that select
    nothing: the restored [partial] and [score] tables have no columns, so
    their columns do not cover the columns of [full]. *)
Lemma restore_views_not_partition :
  exists e, load_state example_env no_views_state "exp-1" = Ok e /\
    ~ (forall c, In c (colnames (full_df e)) <->
                 In c (colnames (partial_df e)) \/ In c (colnames (score_df e))).
Proof.
  eexists. split; [vm_compute; reflexivity|].
  intros H. specialize (H "model"). simpl in H. tauto.
Qed.

(** C7 (amended). After a successful restore, the persisted tuple was
    (params, [full], partial names, score names); every persisted name is a
    column of [full]; [partial] and [score] are the projections of [full]
    onto the two persisted lists, so they have the row index of [full]
    (equal row counts, rows matched by position) and their columns are
    columns of [full]. When the column names of [full] are unique, the
    column names of [partial] and [score] are exactly the persisted lists,
    so the two views partition the columns of [full] if and only if the
    persisted lists do: [_load_state] does not check it. *)
Theorem restore_views_aligned env st id e :
  load_state env st id = Ok e ->
  exists pk aa pcols scols,
    st = [SParams pk aa; SFrame (full_df e); SCols pcols; SCols scols] /\
    incl pcols (colnames (full_df e)) /\ incl scols (colnames (full_df e)) /\
    project (full_df e) pcols = Ok (partial_df e) /\
    project (full_df e) scols = Ok (score_df e) /\
    index (partial_df e) = index (full_df e) /\ index (score_df e) = index (full_df e) /\
    incl (colnames (partial_df e)) (colnames (full_df e)) /\
    incl (colnames (score_df e)) (colnames (full_df e)) /\
    (NoDup (colnames (full_df e)) ->
       colnames (partial_df e) = pcols /\ colnames (score_df e) = scols /\
       (partitions (colnames (full_df e)) (colnames (partial_df e)) (colnames (score_df e)) <->
        partitions (colnames (full_df e)) pcols scols)).
Proof.
  unfold load_state.
  destruct st as [|[] [|[] [|[] [|[] [|]]]]]; try discriminate.
  destruct (dict_get all_args0 "model"), (dict_get all_args0 "messages"); try discriminate.
  destruct (alloc_default_ctor _ _ _) as [st args].
  destruct (init env st args) as [e0|x]; [|discriminate].
  destruct (alloc (heap e0) _) as [st1 pkl], (alloc_dict st1 _) as [st2 aal].
  destruct (project df names) as [pdf|] eqn:Hp; [|discriminate].
  destruct (project df names0) as [sdf|] eqn:Hs; [|discriminate].
  intros [= <-]. cbn [full_df partial_df score_df].
  exists prompt_keys0, all_args0, names, names0.
  pose proof (project_ok _ _ _ Hp) as (Hpi & Hpn & _).
  pose proof (project_ok _ _ _ Hs) as (Hsi & Hsn & _).
  split; [reflexivity|].
  split; [exact (has_cols_incl _ _ Hpn)|]. split; [exact (has_cols_incl _ _ Hsn)|].
  split; [exact Hp|]. split; [exact Hs|].
  split; [exact Hpi|]. split; [exact Hsi|].
  split; [exact (project_incl _ _ _ Hp)|]. split; [exact (project_incl _ _ _ Hs)|].
  intros Hnd. rewrite (project_colnames _ _ _ Hnd Hp), (project_colnames _ _ _ Hnd Hs).
  tauto.
Qed.

Lemma restore_views_aligned_witness :
  exists e, load_state example_env scored_state "exp-1" = Ok e /\
  exists pk aa pcols scols,
    scored_state = [SParams pk aa; SFrame (full_df e); SCols pcols; SCols scols] /\
    incl pcols (colnames (full_df e)) /\ incl scols (colnames (full_df e)) /\
    project (full_df e) pcols = Ok (partial_df e) /\
    project (full_df e) scols = Ok (score_df e) /\
    index (partial_df e) = index (full_df e) /\ index (score_df e) = index (full_df e) /\
    incl (colnames (partial_df e)) (colnames (full_df e)) /\
    incl (colnames (score_df e)) (colnames (full_df e)) /\
    (NoDup (colnames (full_df e)) ->
       colnames (partial_df e) = pcols /\ colnames (score_df e) = scols /\
       (partitions (colnames (full_df e)) (colnames (partial_df e)) (colnames (score_df e)) <->
        partitions (colnames (full_df e)) pcols scols)).
Proof.
  assert (H : load_state example_env scored_state "exp-1"
              = Ok (experiment_of (load_state example_env scored_state "exp-1")))
    by (vm_compute; reflexivity).
  eexists. split; [exact H|].
  exact (restore_views_aligned example_env scored_state "exp-1" _ H).
Defined.

(** ** C8 and C9: the number of keyword arguments *)

(** C8. [run_partial] with two or more keyword arguments raises
    [RuntimeError] before anything else: the experiment is unchanged. *)
Theorem run_partial_rejects_many cf ex kwargs e :
  1 < length kwargs -> run_partial cf ex kwargs e = (e, Exc RuntimeError).
Proof.
  intros H. unfold run_partial. apply Nat.ltb_lt in H. rewrite H. reflexivity.
Qed.

Lemma run_partial_rejects_many_witness :
  1 < length [("model", VStr "m3"); ("temperature", VNum 0)] /\
  run_partial ok_completion identity_response
    [("model", VStr "m3"); ("temperature", VNum 0)] example_experiment
  = (example_experiment, Exc RuntimeError).
Proof.
  split; [simpl; lia|]. apply run_partial_rejects_many. simpl. lia.
Defined.

(** C9. [run_partial()] with no keyword argument fails with [IndexError]
    (from [list(kwargs.items())[0]]), not with a configuration error, and
    leaves the experiment unchanged. *)
Theorem run_partial_no_kwargs cf ex e :
  run_partial cf ex [] e = (e, Exc IndexError).
Proof. reflexivity. Qed.
(** ** C10: what a partial run changes in [all_args] *)

(** C10 (counterexample). The constructor keeps the caller's lists, so two
    parameters given the same list share it: [run_partial(temperature=0.5)]
    appends 0.5 to that list, and the stored [top_p] list changes too. *)
Lemma run_partial_aliased_lists :
  dict_get (deepcopy_args aliased_experiment) "top_p" = Some [VNum 1] /\
  let '(e', r) := run_partial ok_completion identity_response
                    [("temperature", VNum (1 # 2))] aliased_experiment in
  r = Ok tt /\ dict_get (deepcopy_args e') "top_p" = Some [VNum 1; VNum (1 # 2)].
Proof. vm_compute. repeat split. Qed.

(** C10 (amended). A partial run never rebinds a name of [all_args]. If it
    raises, no stored list changes. If it returns normally, the only change
    to the store of lists is to the list object bound to the named
    parameter, which gets [arg_value] appended exactly when it was not in
    it (by [==]); a list object bound to other names sees that append too,
    every other list is unchanged. *)
Theorem run_partial_all_args_frame cf ex e n v e' r :
  run_partial cf ex [(n, v)] e = (e', r) ->
  all_args e' = all_args e /\
  (forall x, r = Exc x -> heap e' = heap e) /\
  (r = Ok tt -> exists l, dict_get (all_args e) n = Some l /\
      heap e' = if py_in v (deref (heap e) l) then heap e
                else append_at (heap e) l v).
Proof. apply run_partial_store_effect. Qed.

Lemma run_partial_all_args_frame_witness :
  run_partial ok_completion identity_response [("temperature", VNum (1 # 2))] aliased_experiment
    = (fst (run_partial ok_completion identity_response [("temperature", VNum (1 # 2))]
              aliased_experiment), Ok tt) /\
  let e' := fst (run_partial ok_completion identity_response [("temperature", VNum (1 # 2))]
                   aliased_experiment) in
  all_args e' = all_args aliased_experiment /\
  (forall x, Ok tt = Exc x -> heap e' = heap aliased_experiment) /\
  (Ok tt = Ok tt -> exists l, dict_get (all_args aliased_experiment) "temperature" = Some l /\
      heap e' = if py_in (VNum (1 # 2)) (deref (heap aliased_experiment) l)
                then heap aliased_experiment
                else append_at (heap aliased_experiment) l (VNum (1 # 2))).
Proof.
  assert (H : run_partial ok_completion identity_response [("temperature", VNum (1 # 2))]
                aliased_experiment
              = (fst (run_partial ok_completion identity_response
                        [("temperature", VNum (1 # 2))] aliased_experiment), Ok tt))
    by (vm_compute; reflexivity).
  split; [exact H|]. exact (run_partial_all_args_frame _ _ _ _ _ _ _ H).
Defined.

(* ================================================================== *)
(** * Further properties of the code *)

(** ** Helper lemmas *)

Lemma length_product (ls : list (list value)) :
  length (product ls) = fold_right Nat.mul 1 (map (@length value) ls).
Proof.
  induction ls as [|l ls IH]; simpl; [reflexivity|]. rewrite <- IH.
  induction l as [|x l IHl]; simpl; [reflexivity|].
  rewrite length_app, length_map, IHl. reflexivity.
Qed.

Lemma length_combos_of (d : pydict (list value)) :
  length (combos_of d) = fold_right Nat.mul 1 (map (fun kv => length kv.2) d).
Proof. unfold combos_of. rewrite length_map, length_product, map_map. reflexivity. Qed.

Lemma product_in (vals : list value) (ls : list (list value)) :
  In vals (product ls) -> Forall2 (fun v xs => In v xs) vals ls.
Proof.
  revert vals. induction ls as [|l ls IH]; simpl; intros vals.
  - intros [<-|[]]. constructor.
  - intros (x & Hx & Hin)%in_flat_map. apply in_map_iff in Hin as (vs & <- & Hvs).
    constructor; auto.
Qed.

Lemma zip_fst_snd {A B} (ks : list A) (vs : list B) :
  length ks = length vs -> map fst (zip ks vs) = ks /\ map snd (zip ks vs) = vs.
Proof.
  revert vs. induction ks as [|k ks IH]; intros [|v vs]; simpl; try discriminate; auto.
  intros [= Hl]. destruct (IH vs Hl) as [-> ->]. auto.
Qed.

Lemma combos_of_in (d : pydict (list value)) (c : pydict value) :
  In c (combos_of d) ->
  map fst c = map fst d /\ Forall2 (fun v xs => In v xs) (map snd c) (map snd d).
Proof.
  unfold combos_of. intros (vals & <- & Hin)%in_map_iff.
  pose proof (product_in _ _ Hin) as Hf.
  assert (Hl : length (map fst d) = length vals).
  { rewrite (Forall2_length _ _ _ Hf), !length_map. reflexivity. }
  destruct (zip_fst_snd _ _ Hl) as [-> ->]. auto.
Qed.

Lemma dict_get_none {A} (d : pydict A) (k : string) :
  dict_get d k = None <-> ~ In k (map fst d).
Proof.
  induction d as [|[k0 a0] d IH]; simpl; [tauto|].
  destruct (String.eqb_spec k0 k) as [->|Hne]; split.
  - discriminate.
  - intros H. exfalso. auto.
  - intros H [->|Hin]; [congruence|]. apply IH in H. auto.
  - intros H. apply IH. auto.
Qed.

Lemma dispatch_all_ok (cf : pydict value -> res (value * Q)) combos e :
  (forall kw, exists r lat, cf kw = Ok (r, lat)) ->
  exists e1, dispatch cf combos e = (e1, Ok tt).
Proof.
  intros Hcf. unfold dispatch. revert e.
  induction combos as [|c combos IH]; intros e; simpl; [eauto|].
  unfold mbind, M_bind, enqueue. destruct (Hcf (strip_defaults c)) as (r & lat & ->).
  apply IH.
Qed.

Lemma run_partial_dispatch_ok cf ex e n v e' :
  run_partial cf ex [(n, v)] e = (e', Ok tt) ->
  exists e1, dispatch cf (partial_combos e n v) e = (e1, Ok tt) /\ exq e' = exq e1 /\
    length (q_results (exq e1)) <> length (q_results (exq e)).
Proof.
  unfold_run_partial Hd.
  - destruct (Z.eqb _ _) eqn:Hz; [unfold raise; intros [=]|].
    apply Z.eqb_neq in Hz. simpl. destruct (dict_get _ n) as [l|].
    + destruct (py_in _ _); simpl; intros [= <-]; exists e1; repeat split; lia.
    + unfold raise. intros [=].
  - intros [=].
Qed.

Lemma load_state_id env st id e :
  load_state env st id = Ok e -> experiment_id e = Some id.
Proof.
  unfold load_state.
  destruct st as [|[] [|[] [|[] [|[] [|]]]]]; try discriminate.
  destruct (dict_get all_args0 "model"), (dict_get all_args0 "messages"); try discriminate.
  destruct (alloc_default_ctor _ _ _) as [st args].
  destruct (init env st args) as [e0|x]; [|discriminate].
  destruct (alloc (heap e0) _) as [st1 pkl], (alloc_dict st1 _) as [st2 aal].
  destruct (project df names); [|discriminate].
  destruct (project df names0); [|discriminate].
  intros [= <-]. reflexivity.
Qed.

Lemma py_eq_none_list (xs : list value) :
  py_eq (VList xs) (VList [VNone]) = true <-> xs = [VNone].
Proof.
  split.
  - destruct xs as [|x [|y xs]]; simpl; try discriminate.
    + destruct x; simpl; discriminate || reflexivity.
    + destruct (py_eq x VNone); discriminate.
  - intros ->. reflexivity.
Qed.

(** Case analysis of a successful construction, down to the [all_args] it
    builds. *)
Ltac init_cases :=
  unfold init;
  destruct (env_DEBUG _ && _) eqn:?Hdbg; [intros [=]|];
  destruct (deref _ (a_messages _)) as [|?m ?ms] eqn:?Hmsg; [intros [=]|];
  destruct (py_eq _ _) eqn:?Hlb;
  destruct (a_azure_openai_service_configs _) as [[|?c ?cs]|] eqn:?Haz;
  repeat match goal with
  | |- context [match ?t with Some _ => _ | None => _ end] =>
      match t with Some _ => fail 1 | None => fail 1 | _ => destruct t eqn:? end
  end;
  try (intros [=]; fail);
  intros [= <-]; cbn [base_init all_args heap prompt_keys dict_del dict_set
                      List.filter fst snd String.eqb Ascii.eqb Bool.eqb negb].

(** Splits a hypothesis [In (k, l) [...]] on a concrete list into one goal
    per entry, with [k] and [l] substituted. *)
Ltac in_cases H tac :=
  simpl in H;
  repeat (destruct H as [H|H]; [injection H as <- <-; tac|]);
  try contradiction.

(** ** The constructor *)

(** A constructed experiment has an empty queue, nothing tabulated and an
    empty [full] table. *)
Lemma init_fresh env st a e :
  init env st a = Ok e ->
  exq e = empty_queue /\ tabulated e = 0 /\ full_df e = empty_frame.
Proof. init_cases. all: repeat split. Qed.

(** A restored experiment has an empty queue and nothing tabulated: every
    queued record is tabulated, as [run_partial_new_model] assumes. *)
Lemma load_state_untabulated env st id e :
  load_state env st id = Ok e -> exq e = empty_queue /\ tabulated e = 0.
Proof.
  unfold load_state.
  destruct st as [|[] [|[] [|[] [|[] [|]]]]]; try discriminate.
  destruct (dict_get all_args0 "model"), (dict_get all_args0 "messages"); try discriminate.
  destruct (alloc_default_ctor _ _ _) as [st args].
  destruct (init env st args) as [e0|x] eqn:He0; [|discriminate].
  destruct (init_fresh _ _ _ _ He0) as (Hq & Ht & _).
  destruct (alloc (heap e0) _) as [st1 pkl], (alloc_dict st1 _) as [st2 aal].
  destruct (project df names); [|discriminate].
  destruct (project df names0); [|discriminate].
  intros [= <-]. cbn. auto.
Qed.

(** Given message lists (the mode this model covers; with [PromptSelector]
    entries the constructor renders a new list instead), the constructor
    copies nothing: the store is the caller's, [prompt_keys] is the caller's
    messages list object, every name of [all_args] is bound
    to one of the list objects it was given, and no name occurs twice. *)
Theorem init_keeps_caller_lists env st a e :
  init env st a = Ok e ->
  heap e = st /\ prompt_keys e = a_messages a /\ NoDup (map fst (all_args e)) /\
  (forall k l, In (k, l) (all_args e) -> In l (ctor_locs a)).
Proof.
  init_cases.
  all: split; [reflexivity|]; split; [reflexivity|]; split;
       [apply (bool_decide_unpack _); vm_compute; reflexivity|].
  all: intros k l Hin;
       in_cases Hin ltac:(unfold ctor_locs; simpl; repeat (first [left; reflexivity | right])).
Qed.

Lemma init_keeps_caller_lists_witness :
  init example_env example_ctor.1 example_ctor.2 = Ok example_experiment /\
  heap example_experiment = example_ctor.1 /\
  prompt_keys example_experiment = a_messages example_ctor.2 /\
  NoDup (map fst (all_args example_experiment)) /\
  (forall k l, In (k, l) (all_args example_experiment) -> In l (ctor_locs example_ctor.2)).
Proof.
  assert (H : init example_env example_ctor.1 example_ctor.2 = Ok example_experiment)
    by (vm_compute; reflexivity).
  split; [exact H|]. exact (init_keeps_caller_lists _ _ _ _ H).
Defined.

(** [logit_bias] is dropped from [all_args] exactly when its list equals
    [[None]] (by [==]); otherwise it is bound to the caller's list, also in
    Azure mode. *)
Theorem init_logit_bias env st a e :
  init env st a = Ok e ->
  (dict_get (all_args e) "logit_bias" = None <-> deref st (a_logit_bias a) = [VNone]) /\
  (deref st (a_logit_bias a) <> [VNone] ->
   dict_get (all_args e) "logit_bias" = Some (a_logit_bias a)).
Proof.
  pose proof (py_eq_none_list (deref st (a_logit_bias a))) as Hiff.
  init_cases.
  all: cbn [dict_get String.eqb Ascii.eqb Bool.eqb fst snd].
  all: first
    [ split; [split; [intros _; apply Hiff; reflexivity | reflexivity]
             | intros Hne; exfalso; apply Hne, Hiff; reflexivity]
    | split; [split; [discriminate | intros Hx; apply Hiff in Hx; discriminate]
             | reflexivity] ].
Qed.

Lemma init_logit_bias_witness :
  init example_env example_ctor.1 example_ctor.2 = Ok example_experiment /\
  (dict_get (all_args example_experiment) "logit_bias" = None <->
   deref example_ctor.1 (a_logit_bias example_ctor.2) = [VNone]) /\
  (deref example_ctor.1 (a_logit_bias example_ctor.2) <> [VNone] ->
   dict_get (all_args example_experiment) "logit_bias" = Some (a_logit_bias example_ctor.2)).
Proof.
  assert (H : init example_env example_ctor.1 example_ctor.2 = Ok example_experiment)
    by (vm_compute; reflexivity).
  split; [exact H|]. exact (init_logit_bias _ _ _ _ H).
Defined.



(** In Azure mode (a non-empty configuration dict), a successful
    construction has read the key from the environment and the three
    configuration entries, and has rebound the model list from ["model"] to
    ["engine"], which comes last in [all_args]. *)
Theorem init_azure_engine env st a e c cs :
  a_azure_openai_service_configs a = Some (c :: cs) ->
  init env st a = Ok e ->
  dict_get (all_args e) "model" = None /\
  dict_get (all_args e) "engine" = Some (a_model a) /\
  last (map fst (all_args e)) = Some "engine" /\
  env_AZURE_OPENAI_KEY env <> None /\
  Forall (fun k => dict_get (c :: cs) k <> None)
    ["AZURE_OPENAI_ENDPOINT"; "API_TYPE"; "API_VERSION"].
Proof.
  intros Hcfg. init_cases; try congruence.
  all: injection Hcfg as -> ->.
  all: repeat split.
  all: first [congruence | (repeat constructor); congruence | vm_compute; reflexivity].
Qed.

Lemma init_azure_engine_witness :
  init azure_env example_ctor.1 (with_azure_configs example_ctor.2 (Some azure_configs))
    = Ok azure_experiment /\
  dict_get (all_args azure_experiment) "model" = None /\
  dict_get (all_args azure_experiment) "engine" = Some (a_model example_ctor.2) /\
  last (map fst (all_args azure_experiment)) = Some "engine" /\
  env_AZURE_OPENAI_KEY azure_env <> None /\
  Forall (fun k => dict_get azure_configs k <> None)
    ["AZURE_OPENAI_ENDPOINT"; "API_TYPE"; "API_VERSION"].
Proof.
  assert (H : init azure_env example_ctor.1 (with_azure_configs example_ctor.2 (Some azure_configs))
              = Ok azure_experiment) by (vm_compute; reflexivity).
  split; [exact H|].
  exact (init_azure_engine azure_env example_ctor.1
           (with_azure_configs example_ctor.2 (Some azure_configs)) azure_experiment
           (hd ("", VNone) azure_configs) (tl azure_configs) eq_refl H).
Defined.



(** [_validate_arg_key] accepts every name the constructor puts into
    [all_args], except ["engine"], the name of the model list in Azure mode. *)
Theorem validate_arg_key_init_names env st a e :
  init env st a = Ok e ->
  forall k l, In (k, l) (all_args e) -> (validate_arg_key k = Ok tt <-> k <> "engine").
Proof.
  init_cases.
  all: intros k l Hin;
       in_cases Hin ltac:(vm_compute; split; intros Hk; first [discriminate Hk | reflexivity | congruence | discriminate]).
Qed.

Lemma validate_arg_key_init_names_witness :
  init azure_env example_ctor.1 (with_azure_configs example_ctor.2 (Some azure_configs))
    = Ok azure_experiment /\
  forall k l, In (k, l) (all_args azure_experiment) -> (validate_arg_key k = Ok tt <-> k <> "engine").
Proof.
  assert (H : init azure_env example_ctor.1 (with_azure_configs example_ctor.2 (Some azure_configs))
              = Ok azure_experiment) by (vm_compute; reflexivity).
  split; [exact H|]. exact (validate_arg_key_init_names _ _ _ _ H).
Defined.

(** A partial run that returns normally leaves every queued record
    tabulated, and the queue's three lists of equal length. *)
Lemma run_partial_tabulates cf ex e n v e' :
  length (q_input_args (exq e)) = length (q_results (exq e)) ->
  length (q_latencies (exq e)) = length (q_results (exq e)) ->
  run_partial cf ex [(n, v)] e = (e', Ok tt) ->
  tabulated e' = length (q_results (exq e')) /\
  length (q_input_args (exq e')) = length (q_results (exq e')) /\
  length (q_latencies (exq e')) = length (q_results (exq e')).
Proof.
  intros Hi Hl H.
  pose proof (run_partial_dispatch_ok _ _ _ _ _ _ H) as (e1 & Hd & Hq' & _).
  pose proof (dispatch_spec _ _ _ _ _ Hd) as [_ (k & rs & ls & Hk & Hi1 & Hr1 & Hrl & Hl1 & Hll & _)].
  assert (Hlens : length (q_input_args (exq e1)) = length (q_results (exq e1)) /\
                  length (q_latencies (exq e1)) = length (q_results (exq e1))).
  { rewrite Hi1, Hr1, Hl1, !length_app, length_map, length_take, Hrl, Hll. lia. }
  revert H. unfold run_partial. simpl. unfold mbind, M_bind, get_exp. rewrite Hd.
  destruct (Z.eqb _ _); [unfold raise; intros [=]|].
  cbv beta iota. cbn [construct_result_dfs fst snd all_args heap].
  destruct (dict_get _ n) as [l|]; [|unfold raise; intros [=]].
  destruct (py_in _ _); cbn; intros [= <-]; cbn;
    rewrite !length_zip; lia.
Qed.

(** ** The argument combos *)

(** The comprehension over [itertools.product] yields one combo per choice
    of a value from every list: their number is the product of the list
    lengths (none when some list is empty). *)
Theorem combos_of_count (d : pydict (list value)) :
  length (combos_of d) = fold_right Nat.mul 1 (map (fun kv => length kv.2) d).
Proof. apply length_combos_of. Qed.

(** Every combo has the keys of the dict, in the dict's order, and takes
    each value from the list of its key. *)
Theorem combos_of_shape (d : pydict (list value)) (c : pydict value) :
  In c (combos_of d) ->
  map fst c = map fst d /\ Forall2 (fun v xs => In v xs) (map snd c) (map snd d).
Proof. apply combos_of_in. Qed.

Lemma combos_of_shape_witness :
  In [("model", VStr "m2"); ("n", VNum 1)]
     (combos_of [("model", [VStr "m1"; VStr "m2"]); ("n", [VNum 1])]) /\
  map fst [("model", VStr "m2"); ("n", VNum 1)]
    = map fst [("model", [VStr "m1"; VStr "m2"]); ("n", [VNum 1])] /\
  Forall2 (fun v xs => In v xs) (map snd [("model", VStr "m2"); ("n", VNum 1)])
    (map snd [("model", [VStr "m1"; VStr "m2"]); ("n", [VNum 1])]).
Proof.
  assert (H : In [("model", VStr "m2"); ("n", VNum 1)]
                (combos_of [("model", [VStr "m1"; VStr "m2"]); ("n", [VNum 1])]))
    by (simpl; auto).
  split; [exact H|]. exact (combos_of_shape _ _ H).
Defined.

(** A partial run dispatches the product of the lengths of the stored
    lists, the named one counting once: a value already in its list is run
    again with every combination of the others. *)
Theorem partial_combos_count e n v :
  NoDup (map fst (all_args e)) ->
  length (partial_combos e n v) =
  fold_right Nat.mul 1
    (map (fun kl => if String.eqb kl.1 n then 1 else length (deref (heap e) kl.2))
       (all_args e)).
Proof.
  intros Hnd. unfold partial_combos. rewrite length_combos_of. unfold deepcopy_args.
  revert Hnd. generalize (all_args e) (heap e). intros d h.
  induction d as [|[k l] d IH]; intros Hnd; [reflexivity|].
  cbn [map] in Hnd. apply NoDup_cons in Hnd as [Hnin Hnd].
  cbn [map dict_set fst snd].
  destruct (String.eqb_spec k n) as [->|Hne]; cbn [map fold_right fst snd length].
  - f_equal. rewrite map_map. apply f_equal, map_ext_in. intros [k' l'] Hin. simpl.
    destruct (String.eqb_spec k' n) as [->|]; [|reflexivity].
    exfalso. apply Hnin, list_elem_of_In. exact (in_map fst _ _ Hin).
  - f_equal. apply IH. exact Hnd.
Qed.

Lemma partial_combos_count_witness :
  NoDup (map fst (all_args example_experiment)) /\
  length (partial_combos example_experiment "temperature" (VNum 0)) =
  fold_right Nat.mul 1
    (map (fun kl => if String.eqb kl.1 "temperature" then 1
                    else length (deref (heap example_experiment) kl.2))
       (all_args example_experiment)).
Proof.
  assert (H : NoDup (map fst (all_args example_experiment)))
    by (apply (bool_decide_unpack _); vm_compute; reflexivity).
  split; [exact H|]. exact (partial_combos_count _ _ _ H).
Defined.

(** ** Partial runs *)

(** A partial run that returns normally has dispatched every combo, once
    and in order, with its sentinels stripped, and has at least one. *)
Theorem run_partial_ok_dispatches_all cf ex e n v e' :
  run_partial cf ex [(n, v)] e = (e', Ok tt) ->
  partial_combos e n v <> [] /\
  q_input_args (exq e') = q_input_args (exq e) ++ map strip_defaults (partial_combos e n v) /\
  length (q_results (exq e')) = length (q_results (exq e)) + length (partial_combos e n v).
Proof.
  intros (e1 & Hd & Hq & Hlen)%run_partial_dispatch_ok.
  apply dispatch_spec in Hd as [_ (k & rs & ls & Hk & Hi & Hr & Hrl & _ & _ & Hok)].
  specialize (Hok eq_refl). rewrite Hok in Hrl, Hi. split.
  - intros Hnil. apply Hlen. rewrite Hr, length_app, Hrl, Hnil. simpl. lia.
  - rewrite Hq, Hi, Hr, firstn_all, length_app, Hrl. auto.
Qed.

Lemma run_partial_ok_dispatches_all_witness :
  run_partial ok_completion identity_response [("model", VStr "m3")] example_experiment
    = (example_after_run, Ok tt) /\
  partial_combos example_experiment "model" (VStr "m3") <> [] /\
  q_input_args (exq example_after_run) = q_input_args (exq example_experiment) ++
    map strip_defaults (partial_combos example_experiment "model" (VStr "m3")) /\
  length (q_results (exq example_after_run)) = length (q_results (exq example_experiment)) +
    length (partial_combos example_experiment "model" (VStr "m3")).
Proof.
  assert (H : run_partial ok_completion identity_response [("model", VStr "m3")] example_experiment
              = (example_after_run, Ok tt)) by (vm_compute; reflexivity).
  split; [exact H|]. exact (run_partial_ok_dispatches_all _ _ _ _ _ _ H).
Defined.

(** A partial run on a name that [all_args] does not bind (an unknown name,
    or [logit_bias] after the constructor dropped it) never returns
    normally and changes no stored list; when every completion call answers
    and there is a combo to run, it raises [KeyError] only after all of them
    ran and were queued. *)
Theorem run_partial_unbound_name cf ex e n v e' r :
  dict_get (all_args e) n = None ->
  run_partial cf ex [(n, v)] e = (e', r) ->
  r <> Ok tt /\ heap e' = heap e /\ all_args e' = all_args e /\
  ((forall kw, exists res lat, cf kw = Ok (res, lat)) -> partial_combos e n v <> [] ->
   r = Exc KeyError /\
   length (q_results (exq e')) = length (q_results (exq e)) + length (partial_combos e n v)).
Proof.
  intros Hn H.
  destruct (run_partial_store_effect _ _ _ _ _ _ _ H) as (Ha & Hexc & Hok).
  assert (Hr : r <> Ok tt).
  { intros ->. destruct (Hok eq_refl) as (l & Hl & _). congruence. }
  split; [exact Hr|]. split.
  { destruct r as [[]|x]; [contradiction|]. exact (Hexc x eq_refl). }
  split; [exact Ha|].
  intros Hcf Hne.
  destruct (dispatch_all_ok cf (partial_combos e n v) e Hcf) as [e1 Hd].
  pose proof (dispatch_spec _ _ _ _ _ Hd) as [Hq (k & rs & ls & Hk & Hi & Hrs & Hrl & _ & _ & Hok1)].
  specialize (Hok1 eq_refl). rewrite Hok1 in Hrl.
  assert (Ha1 : all_args e1 = all_args e) by (rewrite Hq; reflexivity).
  revert H. unfold run_partial. simpl. unfold mbind, M_bind, get_exp. rewrite Hd.
  rewrite (proj2 (Z.eqb_neq _ _)).
  2: { rewrite Hrs, length_app, Hrl. destruct (partial_combos e n v); [congruence|]. simpl. lia. }
  simpl. rewrite Ha1, Hn. unfold raise. intros [= <- <-]. simpl.
  split; [reflexivity|]. rewrite Hrs, length_app, Hrl. reflexivity.
Qed.

Lemma run_partial_unbound_name_witness :
  dict_get (all_args example_experiment) "logit_bias" = None /\
  let '(e', r) := run_partial ok_completion identity_response
                    [("logit_bias", VDict [("50256", VNum (-100))])] example_experiment in
  r <> Ok tt /\ heap e' = heap example_experiment /\ all_args e' = all_args example_experiment /\
  ((forall kw, exists res lat, ok_completion kw = Ok (res, lat)) ->
   partial_combos example_experiment "logit_bias" (VDict [("50256", VNum (-100))]) <> [] ->
   r = Exc KeyError /\
   length (q_results (exq e')) = length (q_results (exq example_experiment)) +
     length (partial_combos example_experiment "logit_bias" (VDict [("50256", VNum (-100))]))).
Proof.
  assert (Hn : dict_get (all_args example_experiment) "logit_bias" = None)
    by (vm_compute; reflexivity).
  split; [exact Hn|].
  destruct (run_partial ok_completion identity_response
              [("logit_bias", VDict [("50256", VNum (-100))])] example_experiment)
    as [e' r] eqn:H.
  exact (run_partial_unbound_name _ _ _ _ _ _ _ Hn H).
Defined.

(** A partial run with a value already in the named list (by [==]) leaves
    the store and the argument combos as they were ([prepare] is not
    called), yet runs and queues every combo again. *)
Theorem run_partial_existing_value cf ex e n v l e' :
  dict_get (all_args e) n = Some l ->
  py_in v (deref (heap e) l) = true ->
  run_partial cf ex [(n, v)] e = (e', Ok tt) ->
  heap e' = heap e /\ argument_combos e' = argument_combos e /\
  length (q_results (exq e')) = length (q_results (exq e)) + length (partial_combos e n v).
Proof.
  intros Hn Hin H.
  pose proof (run_partial_dispatch_ok _ _ _ _ _ _ H) as (e1 & Hd & Hq' & _).
  pose proof (dispatch_spec _ _ _ _ _ Hd) as [Hq (k & rs & ls & Hk & Hi & Hrs & Hrl & _ & _ & Hok)].
  specialize (Hok eq_refl). rewrite Hok in Hrl.
  assert (Ha1 : all_args e1 = all_args e) by (rewrite Hq; reflexivity).
  assert (Hh1 : heap e1 = heap e) by (rewrite Hq; reflexivity).
  assert (Hc1 : argument_combos e1 = argument_combos e) by (rewrite Hq; reflexivity).
  revert H. unfold run_partial. simpl. unfold mbind, M_bind, get_exp. rewrite Hd.
  destruct (Z.eqb _ _); [unfold raise; intros [=]|].
  simpl. rewrite Ha1, Hn, Hh1, Hin. simpl. intros [= <-]. simpl.
  split; [congruence|]. split; [congruence|]. rewrite Hrs, length_app, Hrl. reflexivity.
Qed.

Lemma run_partial_existing_value_witness :
  dict_get (all_args example_experiment) "model" = Some 0 /\
  py_in (VStr "m1") (deref (heap example_experiment) 0) = true /\
  let e' := fst (run_partial ok_completion identity_response [("model", VStr "m1")]
                   example_experiment) in
  run_partial ok_completion identity_response [("model", VStr "m1")] example_experiment
    = (e', Ok tt) /\
  heap e' = heap example_experiment /\ argument_combos e' = argument_combos example_experiment /\
  length (q_results (exq e')) = length (q_results (exq example_experiment)) +
    length (partial_combos example_experiment "model" (VStr "m1")).
Proof.
  assert (Hn : dict_get (all_args example_experiment) "model" = Some 0)
    by (vm_compute; reflexivity).
  assert (Hin : py_in (VStr "m1") (deref (heap example_experiment) 0) = true)
    by (vm_compute; reflexivity).
  assert (H : run_partial ok_completion identity_response [("model", VStr "m1")] example_experiment
              = (fst (run_partial ok_completion identity_response [("model", VStr "m1")]
                        example_experiment), Ok tt)) by (vm_compute; reflexivity).
  split; [exact Hn|]. split; [exact Hin|]. split; [exact H|].
  exact (run_partial_existing_value _ _ _ _ _ _ _ Hn Hin H).
Defined.

(** ** [_get_model_names] and [_get_prompts] *)

(** Without a ["model"] entry in [all_args] (Azure mode binds the models to
    ["engine"]), the combos [prepare] builds carry no ["model"] key, and
    [_get_model_names] raises [KeyError] as soon as there is one. *)
Theorem get_model_names_without_model e :
  dict_get (all_args e) "model" = None ->
  argument_combos (prepare e).1 <> [] ->
  get_model_names (prepare e).1 = Exc KeyError.
Proof.
  intros Hm. unfold get_model_names. cbn [prepare fst argument_combos].
  destruct (combos_of (deepcopy_args e)) as [|c cs] eqn:Hc; [congruence|]. intros _.
  cbn [map_res]. unfold combo_model.
  assert (Hcm : dict_get c "model" = None).
  { apply dict_get_none.
    destruct (combos_of_in (deepcopy_args e) c) as [Hk _]; [rewrite Hc; left; reflexivity|].
    rewrite Hk. unfold deepcopy_args. rewrite map_map.
    exact (proj1 (dict_get_none _ _) Hm). }
  rewrite Hcm. reflexivity.
Qed.

Lemma get_model_names_without_model_witness :
  dict_get (all_args azure_experiment) "model" = None /\
  argument_combos (prepare azure_experiment).1 <> [] /\
  get_model_names (prepare azure_experiment).1 = Exc KeyError.
Proof.
  assert (Hm : dict_get (all_args azure_experiment) "model" = None)
    by (vm_compute; reflexivity).
  assert (Hc : argument_combos (prepare azure_experiment).1 <> [])
    by (vm_compute; discriminate).
  split; [exact Hm|]. split; [exact Hc|]. exact (get_model_names_without_model _ Hm Hc).
Defined.

Lemma get_prompt_raises py_str e c : exists x, get_prompt py_str e c = Exc x.
Proof.
  unfold get_prompt. destruct (dict_get c "messages") as [msgs|]; [|eauto].
  destruct (getitem_last msgs) as [m|]; [|eauto].
  destruct (getitem_str m "content"); cbn [getitem_str]; eauto.
Qed.

(** With message lists given to the constructor (the mode this model
    covers), [_get_prompts] raises as soon as there is an argument combo,
    whatever [str] renders: a lookup in the combo fails, or the
    [prompt_keys] list is subscripted by a str. When the first combo's
    messages end with a dict that has a ["content"] key, it is the latter,
    a [TypeError]. *)
Theorem get_prompts_raises py_str e :
  argument_combos e <> [] ->
  (exists x, get_prompts py_str e = Exc x) /\
  (forall c cs msgs kvs v, argument_combos e = c :: cs ->
     dict_get c "messages" = Some (VList msgs) -> last msgs = Some (VDict kvs) ->
     dict_get kvs "content" = Some v -> get_prompts py_str e = Exc TypeError).
Proof.
  unfold get_prompts. intros Hne. split.
  - destruct (argument_combos e) as [|c cs]; [congruence|].
    cbn [map_res]. destruct (get_prompt_raises py_str e c) as [x ->]. eauto.
  - intros c cs msgs kvs v -> Hm Hl Hc. cbn [map_res]. unfold get_prompt.
    rewrite Hm. cbn [getitem_last]. rewrite Hl. cbn [getitem_str]. rewrite Hc. reflexivity.
Qed.

Lemma get_prompts_raises_witness :
  argument_combos example_after_run <> [] /\
  (exists x, get_prompts (fun v => match v with VStr s => s | _ => "" end) example_after_run
             = Exc x) /\
  (forall c cs msgs kvs v, argument_combos example_after_run = c :: cs ->
     dict_get c "messages" = Some (VList msgs) -> last msgs = Some (VDict kvs) ->
     dict_get kvs "content" = Some v ->
     get_prompts (fun v => match v with VStr s => s | _ => "" end) example_after_run
     = Exc TypeError).
Proof.
  assert (H : argument_combos example_after_run <> []) by (vm_compute; discriminate).
  split; [exact H|]. exact (get_prompts_raises _ _ H).
Defined.

(** ** Persistence *)


(** With the key set, a save posts the snapshot of the experiment, returns
    the server's answer and changes only the experiment id, to the one the
    server answers ([None] when it answers none); the payload of a second
    save carries the id of the first, so two saves send the same snapshot up
    to that id, and the second leaves the id the server answers then. *)
Theorem save_experiment_twice key post n1 n2 e e1 r1 e2 r2 :
  save_experiment (Some key) post n1 e = (e1, Ok r1) ->
  save_experiment (Some key) post n2 e1 = (e2, Ok r2) ->
  r1 = post (get_state e n1) /\
  e1 = set_experiment_id e (dict_get r1 "experiment_id") /\
  r2 = post (SName n2 :: SId (dict_get r1 "experiment_id") :: drop 2 (get_state e n2)) /\
  e2 = set_experiment_id e (dict_get r2 "experiment_id").
Proof. unfold save_experiment. intros [= <- <-] [= <- <-]. auto. Qed.

Lemma save_experiment_twice_witness :
  save_experiment (Some "key") id_server "a" example_experiment
    = (set_experiment_id example_experiment (Some "exp-1"), Ok [("experiment_id", "exp-1")]) /\
  save_experiment (Some "key") id_server "b" (set_experiment_id example_experiment (Some "exp-1"))
    = (set_experiment_id example_experiment (Some "exp-1"), Ok [("experiment_id", "exp-1")]) /\
  [("experiment_id", "exp-1")] = id_server (get_state example_experiment "a") /\
  set_experiment_id example_experiment (Some "exp-1") =
    set_experiment_id example_experiment (dict_get [("experiment_id", "exp-1")] "experiment_id") /\
  [("experiment_id", "exp-1")] =
    id_server (SName "b" :: SId (dict_get [("experiment_id", "exp-1")] "experiment_id")
                 :: drop 2 (get_state example_experiment "b")) /\
  set_experiment_id example_experiment (Some "exp-1") =
    set_experiment_id example_experiment (dict_get [("experiment_id", "exp-1")] "experiment_id").
Proof.
  assert (H1 : save_experiment (Some "key") id_server "a" example_experiment
               = (set_experiment_id example_experiment (Some "exp-1"),
                  Ok [("experiment_id", "exp-1")])) by reflexivity.
  assert (H2 : save_experiment (Some "key") id_server "b"
                 (set_experiment_id example_experiment (Some "exp-1"))
               = (set_experiment_id example_experiment (Some "exp-1"),
                  Ok [("experiment_id", "exp-1")])) by reflexivity.
  split; [exact H1|]. split; [exact H2|].
  exact (save_experiment_twice _ _ _ _ _ _ _ _ _ H1 H2).
Defined.

(** [load_experiment] answers [None] on any status other than 200 without
    raising; an experiment it returns was restored from the content of a
    200 answer and carries the requested id. *)
Theorem load_experiment_status key env get id :
  (fst (get id) <> 200 -> load_experiment (Some key) env get id = Ok None) /\
  (forall e, load_experiment (Some key) env get id = Ok (Some e) ->
   fst (get id) = 200 /\ load_state env (snd (get id)) id = Ok e /\ experiment_id e = Some id).
Proof.
  unfold load_experiment. destruct (get id) as [status content]. cbn [fst snd].
  destruct (Nat.eqb_spec status 200) as [->|Hne]; split.
  - intros []. reflexivity.
  - intros e. destruct (load_state env content id) as [e0|x] eqn:Hl; intros [= <-].
    split; [reflexivity|]. split; [reflexivity|]. exact (load_state_id _ _ _ _ Hl).
  - intros _. reflexivity.
  - intros e [=].
Qed.

(** The payload [save_experiment] sends cannot be loaded back as it is: a
    server answering it unchanged makes [load_experiment] raise
    [ValueError], the six-item tuple being unpacked into four names. *)
Theorem load_of_saved_payload key env e name id :
  load_experiment (Some key) env (fun _ => (200, get_state e name)) id = Exc ValueError.
Proof. reflexivity. Qed.
